(** * RepliesController of the MessageMedia messages SDK (Node.js)

    A shallow embedding of [lib/Controllers/RepliesController.js] and of the
    collaborators it calls, followed by the properties of its two operations,
    [createConfirmRepliesAsReceived] and [getCheckReplies]. *)

From Stdlib Require Import ZArith Ascii String List Lia.
From stdpp Require Import gmap strings list fin_maps.

Set Warnings "-register-all".

Local Open Scope Z_scope.

(** ** URL normalisation (APIHelper.cleanUrl) *)

Module Url.

Definition slash : ascii := "/"%char.
Definition colon : ascii := ":"%char.

Definition is_slash (c : ascii) : bool := Ascii.eqb c slash.

(** Runs of separators become one separator. *)
Fixpoint collapse (s : string) : string :=
  match s with
  | EmptyString => EmptyString
  | String c t =>
      if is_slash c then
        match t with
        | String d _ => if is_slash d then collapse t else String c (collapse t)
        | EmptyString => String c EmptyString
        end
      else String c (collapse t)
  end.

(** The authority: the longest prefix without a separator. *)
Fixpoint split_host (s : string) : string * string :=
  match s with
  | EmptyString => (EmptyString, EmptyString)
  | String c t =>
      if is_slash c then (EmptyString, s)
      else let '(h, r) := split_host t in (String c h, r)
  end.

(** The characters before the first colon, none of them a separator. *)
Fixpoint split_colon (s : string) : option (string * string) :=
  match s with
  | EmptyString => None
  | String c t =>
      if is_slash c then None
      else if Ascii.eqb c colon then Some (EmptyString, t)
      else
        match split_colon t with
        | Some (p, r) => Some (String c p, r)
        | None => None
        end
  end.

(** [scheme://], the scheme being non-empty. *)
Definition split_scheme (s : string) : option (string * string) :=
  match split_colon s with
  | Some (String c p, String s1 (String s2 r)) =>
      if (is_slash s1 && is_slash s2)%bool
      then Some (String c p +:+ String colon (String slash (String slash EmptyString)), r)
      else None
  | _ => None
  end.

(** An absolute URL is [scheme://host] followed by a remainder; the
    remainder is empty or starts with a separator. *)
Definition split_absolute (url : string) : option (string * string) :=
  match split_scheme url with
  | None => None
  | Some (p, r) =>
      match split_host r with
      | (EmptyString, _) => None
      | (h, rest) => Some (p +:+ h, rest)
      end
  end.

Definition is_absolute (url : string) : bool :=
  match split_absolute url with Some _ => true | None => false end.

(** Empty, or starting with a separator. *)
Definition starts_path (s : string) : bool :=
  match s with
  | EmptyString => true
  | String c _ => is_slash c
  end.

(** Modelled from the spec: [APIHelper.cleanUrl], whose file the controller
    requires ([../APIHelper]).  The controller hands it the concatenation
    of base URI and path; it yields the normalised absolute URL, with
    duplicate separators after [scheme://host] collapsed, and yields
    nothing ([null]) for a string that is not an absolute URL (the call
    site's [validate and preprocess url]). *)
Definition cleanUrl (url : string) : option string :=
  match split_absolute url with
  | None => None
  | Some (origin, rest) => Some (origin +:+ collapse rest)
  end.

End Url.

(** ** JavaScript values and [JSON.parse] *)

Module Js.

(** A JavaScript value as the controller sees one: it passes values on and
    never looks inside a decoded one.  A number is the exact decimal
    [m * 10^e] as written, not a double: it is not rounded, [1.0] and [1]
    are different terms, there is no infinity and no negative zero.  A
    string is its bytes.  An object is its properties in the order of first
    appearance, whatever the keys. *)
Inductive value : Type :=
| VUndefined
| VNull
| VBool (b : bool)
| VNum (m e : Z)
| VStr (s : string)
| VArr (xs : list value)
| VObj (fields : list (string * value)).

Definition VInt (z : Z) : value := VNum z 0.

(** [ToBoolean]: what [if (x)] tests. *)
Definition truthy (v : value) : bool :=
  match v with
  | VUndefined | VNull => false
  | VBool b => b
  | VNum m _ => negb (m =? 0)
  | VStr s => negb (String.eqb s EmptyString)
  | VArr _ | VObj _ => true
  end.

(** What a thrown exception carries. *)
Inductive exn : Type :=
| SyntaxError
| TypeError
| Thrown (v : value).

(** *** Lexical classes of JSON *)

Definition dquote : ascii := "034"%char.
Definition backslash : ascii := "092"%char.

Definition is_ws (c : ascii) : bool :=
  let n := nat_of_ascii c in
  ((n =? 32) || (n =? 9) || (n =? 10) || (n =? 13))%nat%bool.

Definition digit_val (c : ascii) : option Z :=
  let n := Z.of_nat (nat_of_ascii c) in
  if (48 <=? n) && (n <=? 57) then Some (n - 48) else None.

Definition hex_val (c : ascii) : option Z :=
  let n := Z.of_nat (nat_of_ascii c) in
  if (48 <=? n) && (n <=? 57) then Some (n - 48)
  else if (65 <=? n) && (n <=? 70) then Some (n - 55)
  else if (97 <=? n) && (n <=? 102) then Some (n - 87)
  else None.

Fixpoint skip_ws (s : string) : string :=
  match s with
  | String c t => if is_ws c then skip_ws t else s
  | EmptyString => s
  end.

Fixpoint expect (lit s : string) : option string :=
  match lit, s with
  | EmptyString, _ => Some s
  | String a l, String b t => if Ascii.eqb a b then expect l t else None
  | String _ _, EmptyString => None
  end.

(** *** Numbers: [-? int frac? exp?] *)

(** Reads a run of digits: the accumulated value, how many were read, and
    the rest. *)
Fixpoint digits (acc : Z) (cnt : Z) (s : string) : Z * Z * string :=
  match s with
  | String c t =>
      match digit_val c with
      | Some d => digits (10 * acc + d) (cnt + 1) t
      | None => (acc, cnt, s)
      end
  | EmptyString => (acc, cnt, s)
  end.

Definition parse_int (s : string) : option (Z * string) :=
  match s with
  | String c t =>
      match digit_val c with
      | Some 0 => Some (0, t)
      | Some d => let '(v, _, r) := digits d 1 t in Some (v, r)
      | None => None
      end
  | EmptyString => None
  end.

Definition parse_frac (m : Z) (s : string) : option (Z * Z * string) :=
  match s with
  | String "." t =>
      let '(v, cnt, r) := digits m 0 t in
      if cnt =? 0 then None else Some (v, cnt, r)
  | _ => Some (m, 0, s)
  end.

Definition parse_exp (s : string) : option (Z * string) :=
  match s with
  | String c t =>
      if (Ascii.eqb c "e" || Ascii.eqb c "E")%bool then
        let '(sg, t') :=
          match t with
          | String "+" u => (1, u)
          | String "-" u => (-1, u)
          | _ => (1, t)
          end in
        let '(v, cnt, r) := digits 0 0 t' in
        if cnt =? 0 then None else Some (sg * v, r)
      else Some (0, s)
  | EmptyString => Some (0, s)
  end.

Definition parse_number (s : string) : option (value * string) :=
  let '(sg, s1) := match s with String "-" t => (-1, t) | _ => (1, s) end in
  match parse_int s1 with
  | None => None
  | Some (i, s2) =>
      match parse_frac i s2 with
      | None => None
      | Some (m, fd, s3) =>
          match parse_exp s3 with
          | None => None
          | Some (e, s4) => Some (VNum (sg * m) (e - fd), s4)
          end
      end
  end.

(** *** Strings *)

Definition byte (n : Z) : ascii := ascii_of_nat (Z.to_nat n).

(** A [\uXXXX] code unit, written out as bytes. *)
Definition code_unit (n : Z) (k : string) : string :=
  if n <? 128 then String (byte n) k
  else if n <? 2048 then String (byte (192 + n / 64)) (String (byte (128 + n mod 64)) k)
  else String (byte (224 + n / 4096))
         (String (byte (128 + (n / 64) mod 64)) (String (byte (128 + n mod 64)) k)).

Definition escape (c : ascii) : option ascii :=
  if Ascii.eqb c dquote then Some dquote
  else if Ascii.eqb c backslash then Some backslash
  else if Ascii.eqb c "/" then Some "/"%char
  else if Ascii.eqb c "b" then Some "008"%char
  else if Ascii.eqb c "f" then Some "012"%char
  else if Ascii.eqb c "n" then Some "010"%char
  else if Ascii.eqb c "r" then Some "013"%char
  else if Ascii.eqb c "t" then Some "009"%char
  else None.

(** The characters after the opening quote, up to the closing one. *)
Fixpoint parse_chars (n : nat) (s : string) : option (string * string) :=
  match n with
  | O => None
  | S k =>
      match s with
      | EmptyString => None
      | String c t =>
          if Ascii.eqb c dquote then Some (EmptyString, t)
          else if Ascii.eqb c backslash then
            match t with
            | String "u" (String h1 (String h2 (String h3 (String h4 r)))) =>
                match hex_val h1, hex_val h2, hex_val h3, hex_val h4 with
                | Some a, Some b, Some c', Some d =>
                    match parse_chars k r with
                    | Some (str, r') =>
                        Some (code_unit (((a * 16 + b) * 16 + c') * 16 + d) str, r')
                    | None => None
                    end
                | _, _, _, _ => None
                end
            | String e r =>
                match escape e with
                | Some x =>
                    match parse_chars k r with
                    | Some (str, r') => Some (String x str, r')
                    | None => None
                    end
                | None => None
                end
            | EmptyString => None
            end
          else if (nat_of_ascii c <? 32)%nat then None
          else
            match parse_chars k t with
            | Some (str, r') => Some (String c str, r')
            | None => None
            end
      end
  end.

Definition parse_string (s : string) : option (string * string) :=
  parse_chars (S (String.length s)) s.

(** *** Values *)

(** A repeated key keeps its place and takes the later value. *)
Fixpoint obj_set (k : string) (v : value) (fs : list (string * value))
  : list (string * value) :=
  match fs with
  | [] => [(k, v)]
  | (k', v') :: r =>
      if String.eqb k k' then (k', v) :: r else (k', v') :: obj_set k v r
  end.

Fixpoint parse_value (n : nat) (s : string) : option (value * string) :=
  match n with
  | O => None
  | S k =>
      match skip_ws s with
      | EmptyString => None
      | String c t as s' =>
          if Ascii.eqb c "{" then
            match skip_ws t with
            | String "}" r => Some (VObj [], r)
            | t' => parse_members k [] t'
            end
          else if Ascii.eqb c "[" then
            match skip_ws t with
            | String "]" r => Some (VArr [], r)
            | t' => parse_elements k [] t'
            end
          else if Ascii.eqb c dquote then
            match parse_string t with
            | Some (str, r) => Some (VStr str, r)
            | None => None
            end
          else if Ascii.eqb c "t" then
            match expect "true" s' with Some r => Some (VBool true, r) | None => None end
          else if Ascii.eqb c "f" then
            match expect "false" s' with Some r => Some (VBool false, r) | None => None end
          else if Ascii.eqb c "n" then
            match expect "null" s' with Some r => Some (VNull, r) | None => None end
          else parse_number s'
      end
  end

with parse_elements (n : nat) (acc : list value) (s : string)
  : option (value * string) :=
  match n with
  | O => None
  | S k =>
      match parse_value k s with
      | None => None
      | Some (v, r) =>
          match skip_ws r with
          | String "," r' => parse_elements k (acc ++ [v]) r'
          | String "]" r' => Some (VArr (acc ++ [v]), r')
          | _ => None
          end
      end
  end

with parse_members (n : nat) (acc : list (string * value)) (s : string)
  : option (value * string) :=
  match n with
  | O => None
  | S k =>
      match skip_ws s with
      | String c t =>
          if Ascii.eqb c dquote then
            match parse_string t with
            | None => None
            | Some (key, r) =>
                match skip_ws r with
                | String ":" r1 =>
                    match parse_value k r1 with
                    | None => None
                    | Some (v, r2) =>
                        match skip_ws r2 with
                        | String "," r3 => parse_members k (obj_set key v acc) r3
                        | String "}" r3 => Some (VObj (obj_set key v acc), r3)
                        | _ => None
                        end
                    end
                | _ => None
                end
            end
          else None
      | EmptyString => None
      end
  end.

(** [JSON.parse(text)]: one value between optional white space; [None] is
    the [SyntaxError] it throws on anything else.  The value is the text
    decoded as written (see [value]): numbers unrounded, each [\uXXXX]
    escape written out on its own, properties in the order of the text
    with a repeated key taking the later value.  What the properties below
    use of it is whether a text is accepted, and that the value is passed
    on as it is. *)
Definition JSON_parse (text : string) : option value :=
  match parse_value (2 * String.length text + 2) text with
  | Some (v, r) =>
      match skip_ws r with
      | EmptyString => Some v
      | String _ _ => None
      end
  | None => None
  end.

End Js.

Import Js.

(** ** The collaborators' data *)

(** [lib/configuration]: process-wide settings the controller reads. *)
Record Configuration : Type := {
  BASEURI : string;
  basicAuthUserName : string;
  basicAuthPassword : string
}.

(** The request description handed to the transport ([_options]).  A [GET]
    has no [body] property. *)
Module Options.
Record t : Type := {
  queryUrl : option string;
  method : string;
  headers : list (string * string);
  body : option value;
  username : string;
  password : string
}.
End Options.

(** What the transport hands back as [_response]. *)
Module Response.
Record t : Type := {
  statusCode : Z;
  body : string
}.
End Response.

(** What [BaseController.validateResponse] returns. *)
Module ErrorResponse.
Record t : Type := {
  error : value;
  response : value;
  context : value
}.
End ErrorResponse.

(** The three arguments the transport passes to the response handler. *)
Record Delivery : Type := {
  _error : value;
  _response : option Response.t;
  _context : value
}.

(** ** Everything a call can be seen to do *)

Inductive level : Type := Info | Debug | Error.

Inductive message : Type :=
| Text (s : string)
| RawRequest (fn : string) (o : Options.t)
| RawResponse (fn : string) (r : Response.t)
| Value (v : value).

Inductive event : Type :=
| ELog (l : level) (m : message)
| ERequest (o : Options.t)
| EValidateResponse (ctx : value) (fn : string)
| EPrintErrorLog (status : Z) (fn : string)
| EJsonParse (text : string)
| EMapObject (v : value) (ty : string)
| ECallback (err resp ctx : value)
| EFulfill (v : value)
| EReject (v : value).

Inductive PromiseState : Type :=
| Pending
| Fulfilled (v : value)
| Rejected (v : value).

Definition loc : Type := positive.

(** The state a call runs in: the objects callers hold (by reference), the
    process-wide configuration, the events so far in order, and the promise
    the call returns. *)
Record World : Type := {
  heap : gmap loc value;
  configuration : Configuration;
  trace : list event;
  promise : PromiseState
}.

(** ** A state and exception monad *)

Inductive completion (A : Type) : Type :=
| Normal (a : A)
| Abrupt (e : exn).
Arguments Normal {A} a.
Arguments Abrupt {A} e.

Definition M (A : Type) : Type := World -> completion A * World.

Definition ret {A} (a : A) : M A := fun w => (Normal a, w).

Definition bind {A B} (m : M A) (k : A -> M B) : M B :=
  fun w =>
    match m w with
    | (Normal a, w') => k a w'
    | (Abrupt e, w') => (Abrupt e, w')
    end.

Definition throw {A} (e : exn) : M A := fun w => (Abrupt e, w).

Declare Scope js_scope.
Delimit Scope js_scope with js.
Notation "x <- m ;; k" := (bind m (fun x => k))
  (at level 100, m at next level, right associativity) : js_scope.
Notation "m ;; k" := (bind m (fun _ => k))
  (at level 100, right associativity) : js_scope.
Local Open Scope js_scope.

Definition emit (e : event) : M unit :=
  fun w =>
    (Normal tt,
     {| heap := heap w; configuration := configuration w;
        trace := trace w ++ [e]; promise := promise w |}).

Definition _configuration : M Configuration :=
  fun w => (Normal (configuration w), w).

(** Reading the caller's object; a reference to nothing reads [undefined]. *)
Definition deref (l : loc) : M value :=
  fun w => (Normal (default VUndefined (heap w !! l)), w).

Definition update (l : loc) (f : value -> value) : M unit :=
  fun w =>
    (Normal tt,
     {| heap := alter f l (heap w); configuration := configuration w;
        trace := trace w; promise := promise w |}).

Definition set_promise (p : PromiseState) : M unit :=
  fun w =>
    (Normal tt,
     {| heap := heap w; configuration := configuration w;
        trace := trace w; promise := p |}).

(** A promise settles once: later calls of its resolving functions are
    recorded but change nothing. *)
Definition settle (p : PromiseState) : M unit :=
  fun w =>
    match promise w with
    | Pending => set_promise p w
    | _ => (Normal tt, w)
    end.

Definition new_Promise : M unit := set_promise Pending.
Definition _fulfill (v : value) : M unit := emit (EFulfill v);; settle (Fulfilled v).
Definition _reject (v : value) : M unit := emit (EReject v);; settle (Rejected v).

Definition _logger (l : level) (m : message) : M unit := emit (ELog l m).

(** [JSON.parse] inside the monad: the call is recorded, a syntax error is
    thrown. *)
Definition JSON_parse_m (text : string) : M value :=
  emit (EJsonParse text);;
  match JSON_parse text with
  | Some v => ret v
  | None => throw SyntaxError
  end.

(** ** Callbacks *)

(** How a call of the caller's function ends; what it returns is ignored by
    the controller. *)
Inductive cb_result : Type :=
| Returns
| Throws (e : value).

Definition cbfun : Type := value -> value -> value -> cb_result.

(** [typeof callback === 'function' ? callback : () => undefined]; [None]
    stands for every argument that is not a function. *)
Definition pick_callback (callback : option cbfun) : cbfun :=
  match callback with
  | Some f => f
  | None => fun _ _ _ => Returns
  end.

Definition invoke (_callback : cbfun) (err resp ctx : value) : M unit :=
  emit (ECallback err resp ctx);;
  match _callback err resp ctx with
  | Returns => ret tt
  | Throws e => throw (Thrown e)
  end.

(** ** APIHelper *)

(** Modelled from the spec: [APIHelper.cleanObject], the strip-null-fields
    pass.  Every property whose value is [null] is removed, in nested
    objects and in the objects inside arrays too; nothing else changes. *)
Fixpoint cleanValue (v : value) : value :=
  match v with
  | VArr xs => VArr (List.map cleanValue xs)
  | VObj fs =>
      VObj ((fix fields (fs : list (string * value)) : list (string * value) :=
               match fs with
               | [] => []
               | (k, VNull) :: r => fields r
               | (k, x) :: r => (k, cleanValue x) :: fields r
               end) fs)
  | _ => v
  end.

(** The controller discards what [cleanObject(body)] returns and serialises
    [body] itself afterwards: the pass works on the caller's object in
    place. *)
Definition cleanObject (body : loc) : M unit := update body cleanValue.

(** ** Observing a run *)

Definition is_callback (e : event) : bool :=
  match e with ECallback _ _ _ => true | _ => false end.

Definition is_settle (e : event) : bool :=
  match e with EFulfill _ | EReject _ => true | _ => false end.


Definition is_parse (e : event) : bool :=
  match e with EJsonParse _ => true | _ => false end.

Definition count (p : event -> bool) (t : list event) : nat :=
  length (List.filter p t).

(** The request descriptions handed to the transport, in order. *)
Fixpoint requests (t : list event) : list Options.t :=
  match t with
  | [] => []
  | ERequest o :: r => o :: requests r
  | _ :: r => requests r
  end.

(** The events a computation adds to the trace of the world it starts in. *)
Definition events {A} (m : M A) (w : World) : list event :=
  drop (length (trace w)) (trace (snd (m w))).

Definition result {A} (m : M A) (w : World) : completion A := fst (m w).
Definition final {A} (m : M A) (w : World) : World := snd (m w).

(** No resolving function is called before the callback has been called. *)
Fixpoint callback_first_from (seen : bool) (t : list event) : bool :=
  match t with
  | [] => true
  | e :: r =>
      if is_settle e then seen && callback_first_from seen r
      else callback_first_from (seen || is_callback e) r
  end.

Definition callback_first (t : list event) : bool := callback_first_from false t.

(** The callback was called exactly once, a resolving function was called
    exactly once, and the promise is no longer pending. *)
Definition exactly_once (m : M unit) (w : World) : Prop :=
  count is_callback (events m w) = 1%nat /\
  count is_settle (events m w) = 1%nat /\
  promise (final m w) <> Pending.

(** A callback that never throws; no callback at all never throws. *)
Definition returns_normally (callback : option cbfun) : Prop :=
  forall f, callback = Some f -> forall e r c, f e r c = Returns.

(** The four outcomes a delivery can fall under. *)
Inductive branch : Type :=
| TransportFailure
| SuccessStatus
| Status400
| OtherStatus.

Definition success_status (r : Response.t) : bool :=
  (200 <=? Response.statusCode r) && (Response.statusCode r <=? 206).

Definition classify (d : Delivery) : option branch :=
  if truthy (_error d) then Some TransportFailure
  else
    match _response d with
    | None => None
    | Some r =>
        if success_status r then Some SuccessStatus
        else if Response.statusCode r =? 400 then Some Status400
        else Some OtherStatus
    end.

(** ** Stand-ins for the collaborators, for running the model *)

Module Stub.

Definition validateResponse_result (ctx : value) (fn : string) : ErrorResponse.t :=
  {| ErrorResponse.error := VObj [("errorMessage", VStr "HTTP Response Not OK")];
     ErrorResponse.response := VNull;
     ErrorResponse.context := ctx |}.

Definition mapObject_result (v : value) (ty : string) : completion value :=
  match v with
  | VObj _ => Normal v
  | _ => Abrupt TypeError
  end.

Definition jsonSerialize (v : value) : value := v.

Definition answer (status : Z) (text : string) (o : Options.t) : Delivery :=
  {| _error := VNull;
     _response := Some {| Response.statusCode := status; Response.body := text |};
     _context := VStr "context" |}.


Definition config : Configuration :=
  {| BASEURI := "https://api.messagemedia.com";
     basicAuthUserName := "key";
     basicAuthPassword := "secret" |}.

Definition request_object : value :=
  VObj [("reply_ids", VArr [VStr "011dcead-6988-4ad6-a1c7-6b6c68ea628d"]);
        ("note", VNull)].

Definition world : World :=
  {| heap := {[ 1%positive := request_object ]};
     configuration := config;
     trace := [];
     promise := Pending |}.

Definition throwing : cbfun := fun _ _ _ => Throws (VStr "boom").
Definition quiet : cbfun := fun _ _ _ => Returns.

End Stub.

(** ** RepliesController *)

Section RepliesController.

(** The collaborators whose files the controller requires
    ([./BaseController], [../APIHelper], [../Http/Client/RequestClient]).
    Each is taken as it is described: [validateResponse] builds a generic
    error object, with response and context, from the raw context;
    the object mapper maps a decoded JSON value into a named shape, or
    throws; [jsonSerialize] turns a value into the request body; the
    transport answers a request description by one call of the handler
    it is given, in a later turn of the event loop. *)
Variable validateResponse_result : value -> string -> ErrorResponse.t.
Variable mapObject_result : value -> string -> completion value.
Variable jsonSerialize : value -> value.
Variable transport : Options.t -> Delivery.

Definition validateResponse (ctx : value) (fn : string) : M ErrorResponse.t :=
  emit (EValidateResponse ctx fn);; ret (validateResponse_result ctx fn).

Definition printErrorLog (status : Z) (fn : string) : M unit :=
  emit (EPrintErrorLog status fn).

Definition mapObject (v : value) (ty : string) : M value :=
  emit (EMapObject v ty);;
  match mapObject_result v ty with
  | Normal m => ret m
  | Abrupt e => throw e
  end.

Definition _request (_options : Options.t) : M Delivery :=
  emit (ERequest _options);; ret (transport _options).

Definition user_agent : string := "messagemedia-messages-nodejs-sdk-1.0.0".

(** *** createConfirmRepliesAsReceived *)

Definition confirm_name : string := "createConfirmRepliesAsReceived".

(** The object literal of the 400 branch. *)
Definition client_error (r : Response.t) : value :=
  VObj [("errorMessage", VStr EmptyString);
        ("errorCode", VInt 400);
        ("errorResponse", VStr (Response.body r))].

(** The function handed to [_request]. *)
Definition confirm_handler (_callback : cbfun) (d : Delivery) : M unit :=
  if truthy (_error d) then
    (_logger Error (Value (_error d));;
     errorResponse <- validateResponse (_context d) confirm_name;;
     invoke _callback (ErrorResponse.error errorResponse)
       (ErrorResponse.response errorResponse)
       (ErrorResponse.context errorResponse);;
     _reject (ErrorResponse.error errorResponse))
  else
    match _response d with
    | None => throw TypeError
    | Some r =>
        if (200 <=? Response.statusCode r) && (Response.statusCode r <=? 206) then
          (_logger Debug (RawResponse confirm_name r);;
           parsed <- JSON_parse_m (Response.body r);;
           invoke _callback VNull parsed (_context d);;
           _fulfill parsed)
        else if Response.statusCode r =? 400 then
          (printErrorLog (Response.statusCode r) confirm_name;;
           let _err := client_error r in
           invoke _callback _err VNull (_context d);;
           _reject _err)
        else
          (_logger Info (Text "Validating response for createConfirmRepliesAsReceived ");;
           errorResponse <- validateResponse (_context d) confirm_name;;
           invoke _callback (ErrorResponse.error errorResponse)
             (ErrorResponse.response errorResponse)
             (ErrorResponse.context errorResponse);;
           _reject (ErrorResponse.error errorResponse))
    end.

Definition confirm_headers : list (string * string) :=
  [("accept", "application/json");
   ("content-type", "application/json; charset=utf-8");
   ("user-agent", user_agent)].

(** Lines 43 to 76: the request description. *)
Definition confirm_options (body : loc) : M Options.t :=
  _logger Info (Text "createConfirmRepliesAsReceived being called");;
  _logger Info (Text "Preparing Query URL for createConfirmRepliesAsReceived");;
  c <- _configuration;;
  let _baseUri := BASEURI c in
  let _queryBuilder := _baseUri +:+ "/v1/replies/confirmed" in
  let _queryUrl := Url.cleanUrl _queryBuilder in
  _logger Info (Text "Preparing headers for createConfirmRepliesAsReceived");;
  let _headers := confirm_headers in
  cleanObject body;;
  b <- deref body;;
  c' <- _configuration;;
  let _options :=
    {| Options.queryUrl := _queryUrl;
       Options.method := "POST";
       Options.headers := _headers;
       Options.body := Some (jsonSerialize b);
       Options.username := basicAuthUserName c';
       Options.password := basicAuthPassword c' |} in
  _logger Debug (RawRequest confirm_name _options);;
  ret _options.

(** One call, up to and including the handler's run on what the transport
    delivers.  An [Abrupt] result is an exception nobody catches. *)
Definition createConfirmRepliesAsReceived (body : loc) (callback : option cbfun)
  : M unit :=
  let _callback := pick_callback callback in
  _options <- confirm_options body;;
  new_Promise;;
  _logger Info (Text "Sending request for createConfirmRepliesAsReceived...");;
  d <- _request _options;;
  confirm_handler _callback d.

(** *** getCheckReplies *)

Definition check_name : string := "getCheckReplies".

Definition check_handler (_callback : cbfun) (d : Delivery) : M unit :=
  if truthy (_error d) then
    (_logger Error (Value (_error d));;
     errorResponse <- validateResponse (_context d) check_name;;
     invoke _callback (ErrorResponse.error errorResponse)
       (ErrorResponse.response errorResponse)
       (ErrorResponse.context errorResponse);;
     _reject (ErrorResponse.error errorResponse))
  else
    match _response d with
    | None => throw TypeError
    | Some r =>
        if (200 <=? Response.statusCode r) && (Response.statusCode r <=? 206) then
          (_logger Debug (RawResponse check_name r);;
           parsed <- JSON_parse_m (Response.body r);;
           _logger Info (Text "Deserializing response for getCheckReplies");;
           parsed <- mapObject parsed "CheckRepliesResponse";;
           invoke _callback VNull parsed (_context d);;
           _fulfill parsed)
        else
          (_logger Info (Text "Validating response for getCheckReplies ");;
           errorResponse <- validateResponse (_context d) check_name;;
           invoke _callback (ErrorResponse.error errorResponse)
             (ErrorResponse.response errorResponse)
             (ErrorResponse.context errorResponse);;
           _reject (ErrorResponse.error errorResponse))
    end.

Definition check_headers : list (string * string) :=
  [("accept", "application/json");
   ("user-agent", user_agent)].

(** Lines 196 to 224. *)
Definition check_options : M Options.t :=
  _logger Info (Text "getCheckReplies being called");;
  _logger Info (Text "Preparing Query URL for getCheckReplies");;
  c <- _configuration;;
  let _baseUri := BASEURI c in
  let _queryBuilder := _baseUri +:+ "/v1/replies" in
  let _queryUrl := Url.cleanUrl _queryBuilder in
  _logger Info (Text "Preparing headers for getCheckReplies");;
  let _headers := check_headers in
  c' <- _configuration;;
  let _options :=
    {| Options.queryUrl := _queryUrl;
       Options.method := "GET";
       Options.headers := _headers;
       Options.body := None;
       Options.username := basicAuthUserName c';
       Options.password := basicAuthPassword c' |} in
  _logger Debug (RawRequest check_name _options);;
  ret _options.

Definition getCheckReplies (callback : option cbfun) : M unit :=
  let _callback := pick_callback callback in
  _options <- check_options;;
  new_Promise;;
  _logger Info (Text "Sending request for getCheckReplies...");;
  d <- _request _options;;
  check_handler _callback d.

(** *** What a call has done when the request leaves *)

Definition confirm_request (w : World) (body : loc) : Options.t :=
  {| Options.queryUrl :=
       Url.cleanUrl (BASEURI (configuration w) +:+ "/v1/replies/confirmed");
     Options.method := "POST";
     Options.headers := confirm_headers;
     Options.body :=
       Some (jsonSerialize (cleanValue (default VUndefined (heap w !! body))));
     Options.username := basicAuthUserName (configuration w);
     Options.password := basicAuthPassword (configuration w) |}.

Definition confirm_prelude (w : World) (body : loc) : list event :=
  [ELog Info (Text "createConfirmRepliesAsReceived being called");
   ELog Info (Text "Preparing Query URL for createConfirmRepliesAsReceived");
   ELog Info (Text "Preparing headers for createConfirmRepliesAsReceived");
   ELog Debug (RawRequest confirm_name (confirm_request w body));
   ELog Info (Text "Sending request for createConfirmRepliesAsReceived...");
   ERequest (confirm_request w body)].

Definition confirm_sent (w : World) (body : loc) : World :=
  {| heap := alter cleanValue body (heap w);
     configuration := configuration w;
     trace := trace w ++ confirm_prelude w body;
     promise := Pending |}.

Definition check_request (w : World) : Options.t :=
  {| Options.queryUrl := Url.cleanUrl (BASEURI (configuration w) +:+ "/v1/replies");
     Options.method := "GET";
     Options.headers := check_headers;
     Options.body := None;
     Options.username := basicAuthUserName (configuration w);
     Options.password := basicAuthPassword (configuration w) |}.

Definition check_prelude (w : World) : list event :=
  [ELog Info (Text "getCheckReplies being called");
   ELog Info (Text "Preparing Query URL for getCheckReplies");
   ELog Info (Text "Preparing headers for getCheckReplies");
   ELog Debug (RawRequest check_name (check_request w));
   ELog Info (Text "Sending request for getCheckReplies...");
   ERequest (check_request w)].

Definition check_sent (w : World) : World :=
  {| heap := heap w;
     configuration := configuration w;
     trace := trace w ++ check_prelude w;
     promise := Pending |}.

(** The delivery a call's handler runs on. *)
Definition confirm_delivery (w : World) (body : loc) : Delivery :=
  transport (confirm_request w body).

Definition check_delivery (w : World) : Delivery :=
  transport (check_request w).

(** The success body decodes: it is JSON and, for check-replies, the
    mapper accepts the decoded value. *)
Definition confirm_decodes (d : Delivery) : Prop :=
  forall r, _response d = Some r -> is_Some (JSON_parse (Response.body r)).

Definition check_decodes (d : Delivery) : Prop :=
  forall r, _response d = Some r ->
    exists v m, JSON_parse (Response.body r) = Some v /\
                mapObject_result v "CheckRepliesResponse" = Normal m.

(** *** What the handler does in each branch *)

Definition fallback (fn : string) (d : Delivery) : ErrorResponse.t :=
  validateResponse_result (_context d) fn.

Definition on_fallback (fn : string) (d : Delivery) : list event :=
  [EValidateResponse (_context d) fn;
   ECallback (ErrorResponse.error (fallback fn d))
     (ErrorResponse.response (fallback fn d))
     (ErrorResponse.context (fallback fn d));
   EReject (ErrorResponse.error (fallback fn d))].

Definition on_failure (fn : string) (d : Delivery) : list event :=
  ELog Error (Value (_error d)) :: on_fallback fn d.

Definition on_other_status (fn : string) (d : Delivery) : list event :=
  ELog Info (Text ("Validating response for " +:+ fn +:+ " ")) :: on_fallback fn d.

Definition on_400 (r : Response.t) (d : Delivery) : list event :=
  [EPrintErrorLog 400 confirm_name;
   ECallback (client_error r) VNull (_context d);
   EReject (client_error r)].

Definition confirm_on_success (r : Response.t) (v : value) (d : Delivery)
  : list event :=
  [ELog Debug (RawResponse confirm_name r);
   EJsonParse (Response.body r);
   ECallback VNull v (_context d);
   EFulfill v].

Definition check_on_success (r : Response.t) (v m : value) (d : Delivery)
  : list event :=
  [ELog Debug (RawResponse check_name r);
   EJsonParse (Response.body r);
   ELog Info (Text "Deserializing response for getCheckReplies");
   EMapObject v "CheckRepliesResponse";
   ECallback VNull m (_context d);
   EFulfill m].

(** How a run ended, what it added to the trace, and the promise. *)
Definition observe (m : M unit) (w : World)
  : completion unit * list event * PromiseState :=
  (result m w, events m w, promise (final m w)).

(** Resolved on success, rejected in every error branch. *)
Definition settled_as (b : branch) (p : PromiseState) : Prop :=
  match b with
  | SuccessStatus => exists v, p = Fulfilled v
  | _ => exists e, p = Rejected e
  end.

(** ** Properties *)

Ltac monad_unfold :=
  cbv beta iota zeta delta
    [bind ret throw emit invoke _logger validateResponse printErrorLog mapObject
     _request JSON_parse_m _fulfill _reject settle set_promise new_Promise
     _configuration deref update cleanObject
     heap configuration trace promise].

Lemma cleaned_lookup (h : gmap loc value) (l : loc) :
  default VUndefined (alter cleanValue l h !! l) =
  cleanValue (default VUndefined (h !! l)).
Proof. rewrite lookup_alter_eq. destruct (h !! l); reflexivity. Qed.

Lemma confirm_split (body : loc) (callback : option cbfun) (w : World) :
  createConfirmRepliesAsReceived body callback w =
  confirm_handler (pick_callback callback) (confirm_delivery w body)
    (confirm_sent w body).
Proof.
  unfold createConfirmRepliesAsReceived, confirm_options, confirm_delivery,
    confirm_sent, confirm_prelude, confirm_request.
  monad_unfold. rewrite cleaned_lookup. rewrite <- !app_assoc. reflexivity.
Qed.

Lemma check_split (callback : option cbfun) (w : World) :
  getCheckReplies callback w =
  check_handler (pick_callback callback) (check_delivery w) (check_sent w).
Proof.
  unfold getCheckReplies, check_options, check_delivery, check_sent,
    check_prelude, check_request.
  monad_unfold. rewrite <- !app_assoc. reflexivity.
Qed.

Lemma events_intro {A} (m : M A) (w : World) (evs : list event) :
  trace (snd (m w)) = trace w ++ evs -> events m w = evs.
Proof. unfold events. intros ->. apply drop_app_length. Qed.

Lemma observe_intro (m : M unit) (w : World) c h cf evs p :
  m w = (c, {| heap := h; configuration := cf; trace := trace w ++ evs; promise := p |}) ->
  observe m w = (c, evs, p).
Proof.
  intros E. unfold observe, result, final, events. rewrite E. simpl.
  rewrite drop_app_length. reflexivity.
Qed.

Ltac handler_unfold :=
  unfold confirm_handler, check_handler, confirm_sent, check_sent;
  monad_unfold.

(** **** createConfirmRepliesAsReceived, branch by branch *)

Lemma confirm_failure_run body callback w :
  let d := confirm_delivery w body in
  truthy (_error d) = true ->
  pick_callback callback (ErrorResponse.error (fallback confirm_name d))
    (ErrorResponse.response (fallback confirm_name d))
    (ErrorResponse.context (fallback confirm_name d)) = Returns ->
  observe (createConfirmRepliesAsReceived body callback) w =
  (Normal tt, confirm_prelude w body ++ on_failure confirm_name d,
   Rejected (ErrorResponse.error (fallback confirm_name d))).
Proof.
  intros d Ht Hc. unfold fallback in Hc. eapply observe_intro.
  rewrite confirm_split. fold d. handler_unfold. rewrite Ht, Hc.
  rewrite <- !app_assoc. reflexivity.
Qed.

Lemma returns_normally_pick callback e r c :
  returns_normally callback -> pick_callback callback e r c = Returns.
Proof.
  intros H. destruct callback as [f|]; simpl; [apply (H f eq_refl) | reflexivity].
Qed.

Lemma returns_normally_None : returns_normally None.
Proof. intros f Hf. discriminate. Qed.

Lemma confirm_success_run body callback w r v :
  let d := confirm_delivery w body in
  truthy (_error d) = false ->
  _response d = Some r ->
  success_status r = true ->
  JSON_parse (Response.body r) = Some v ->
  pick_callback callback VNull v (_context d) = Returns ->
  observe (createConfirmRepliesAsReceived body callback) w =
  (Normal tt, confirm_prelude w body ++ confirm_on_success r v d, Fulfilled v).
Proof.
  intros d Ht Hr Hs Hp Hc. unfold success_status in Hs. eapply observe_intro.
  rewrite confirm_split. fold d. handler_unfold. rewrite Ht, Hr, Hs, Hp, Hc.
  rewrite <- !app_assoc. reflexivity.
Qed.

Lemma confirm_parse_failure_run body callback w r :
  let d := confirm_delivery w body in
  truthy (_error d) = false ->
  _response d = Some r ->
  success_status r = true ->
  JSON_parse (Response.body r) = None ->
  observe (createConfirmRepliesAsReceived body callback) w =
  (Abrupt SyntaxError,
   confirm_prelude w body ++
     [ELog Debug (RawResponse confirm_name r); EJsonParse (Response.body r)],
   Pending).
Proof.
  intros d Ht Hr Hs Hp. unfold success_status in Hs. eapply observe_intro.
  rewrite confirm_split. fold d. handler_unfold. rewrite Ht, Hr, Hs, Hp.
  rewrite <- !app_assoc. reflexivity.
Qed.

Lemma confirm_400_run body callback w r :
  let d := confirm_delivery w body in
  truthy (_error d) = false ->
  _response d = Some r ->
  Response.statusCode r = 400 ->
  pick_callback callback (client_error r) VNull (_context d) = Returns ->
  observe (createConfirmRepliesAsReceived body callback) w =
  (Normal tt, confirm_prelude w body ++ on_400 r d, Rejected (client_error r)).
Proof.
  intros d Ht Hr Hs Hc. eapply observe_intro.
  rewrite confirm_split. fold d. handler_unfold. rewrite Ht, Hr, Hs, Hc. simpl.
  rewrite <- !app_assoc. reflexivity.
Qed.

Lemma confirm_other_run body callback w r :
  let d := confirm_delivery w body in
  truthy (_error d) = false ->
  _response d = Some r ->
  success_status r = false ->
  Response.statusCode r <> 400 ->
  pick_callback callback (ErrorResponse.error (fallback confirm_name d))
    (ErrorResponse.response (fallback confirm_name d))
    (ErrorResponse.context (fallback confirm_name d)) = Returns ->
  observe (createConfirmRepliesAsReceived body callback) w =
  (Normal tt, confirm_prelude w body ++ on_other_status confirm_name d,
   Rejected (ErrorResponse.error (fallback confirm_name d))).
Proof.
  intros d Ht Hr Hs Hn Hc. unfold success_status in Hs. unfold fallback in Hc.
  apply Z.eqb_neq in Hn. eapply observe_intro.
  rewrite confirm_split. fold d. handler_unfold. rewrite Ht, Hr, Hs, Hn, Hc.
  rewrite <- !app_assoc. reflexivity.
Qed.

(** **** getCheckReplies, branch by branch *)

Lemma check_failure_run callback w :
  let d := check_delivery w in
  truthy (_error d) = true ->
  pick_callback callback (ErrorResponse.error (fallback check_name d))
    (ErrorResponse.response (fallback check_name d))
    (ErrorResponse.context (fallback check_name d)) = Returns ->
  observe (getCheckReplies callback) w =
  (Normal tt, check_prelude w ++ on_failure check_name d,
   Rejected (ErrorResponse.error (fallback check_name d))).
Proof.
  intros d Ht Hc. unfold fallback in Hc. eapply observe_intro.
  rewrite check_split. fold d. handler_unfold. rewrite Ht, Hc.
  rewrite <- !app_assoc. reflexivity.
Qed.

Lemma check_success_run callback w r v m :
  let d := check_delivery w in
  truthy (_error d) = false ->
  _response d = Some r ->
  success_status r = true ->
  JSON_parse (Response.body r) = Some v ->
  mapObject_result v "CheckRepliesResponse" = Normal m ->
  pick_callback callback VNull m (_context d) = Returns ->
  observe (getCheckReplies callback) w =
  (Normal tt, check_prelude w ++ check_on_success r v m d, Fulfilled m).
Proof.
  intros d Ht Hr Hs Hp Hm Hc. unfold success_status in Hs. eapply observe_intro.
  rewrite check_split. fold d. handler_unfold. rewrite Ht, Hr, Hs, Hp, Hm, Hc.
  rewrite <- !app_assoc. reflexivity.
Qed.

Lemma check_parse_failure_run callback w r :
  let d := check_delivery w in
  truthy (_error d) = false ->
  _response d = Some r ->
  success_status r = true ->
  JSON_parse (Response.body r) = None ->
  observe (getCheckReplies callback) w =
  (Abrupt SyntaxError,
   check_prelude w ++
     [ELog Debug (RawResponse check_name r); EJsonParse (Response.body r)],
   Pending).
Proof.
  intros d Ht Hr Hs Hp. unfold success_status in Hs. eapply observe_intro.
  rewrite check_split. fold d. handler_unfold. rewrite Ht, Hr, Hs, Hp.
  rewrite <- !app_assoc. reflexivity.
Qed.

Lemma check_map_failure_run callback w r v e :
  let d := check_delivery w in
  truthy (_error d) = false ->
  _response d = Some r ->
  success_status r = true ->
  JSON_parse (Response.body r) = Some v ->
  mapObject_result v "CheckRepliesResponse" = Abrupt e ->
  observe (getCheckReplies callback) w =
  (Abrupt e,
   check_prelude w ++
     [ELog Debug (RawResponse check_name r); EJsonParse (Response.body r);
      ELog Info (Text "Deserializing response for getCheckReplies");
      EMapObject v "CheckRepliesResponse"],
   Pending).
Proof.
  intros d Ht Hr Hs Hp Hm. unfold success_status in Hs. eapply observe_intro.
  rewrite check_split. fold d. handler_unfold. rewrite Ht, Hr, Hs, Hp, Hm.
  rewrite <- !app_assoc. reflexivity.
Qed.

Lemma check_other_run callback w r :
  let d := check_delivery w in
  truthy (_error d) = false ->
  _response d = Some r ->
  success_status r = false ->
  pick_callback callback (ErrorResponse.error (fallback check_name d))
    (ErrorResponse.response (fallback check_name d))
    (ErrorResponse.context (fallback check_name d)) = Returns ->
  observe (getCheckReplies callback) w =
  (Normal tt, check_prelude w ++ on_other_status check_name d,
   Rejected (ErrorResponse.error (fallback check_name d))).
Proof.
  intros d Ht Hr Hs Hc. unfold success_status in Hs. unfold fallback in Hc.
  eapply observe_intro.
  rewrite check_split. fold d. handler_unfold. rewrite Ht, Hr, Hs, Hc.
  rewrite <- !app_assoc. reflexivity.
Qed.

(** **** Facts that hold of every run *)

Lemma requests_app (t1 t2 : list event) :
  requests (t1 ++ t2) = requests t1 ++ requests t2.
Proof.
  induction t1 as [|e t1 IH]; simpl; [reflexivity|].
  destruct e; simpl; rewrite ?IH; reflexivity.
Qed.

Lemma callback_first_from_sound (t : list event) :
  forall seen, callback_first_from seen t = true ->
  forall (i : nat) e, t !! i = Some e -> is_settle e = true ->
  seen = true \/
  exists (j : nat) c, (j < i)%nat /\ t !! j = Some c /\ is_callback c = true.
Proof.
  induction t as [|x t IH]; intros seen H i e Hi He; [discriminate|].
  simpl in H. destruct i as [|i]; simpl in Hi.
  - injection Hi as ->. rewrite He in H. left.
    destruct seen; [reflexivity | discriminate].
  - destruct (is_settle x) eqn:Hx.
    + apply andb_prop in H as [Hs H].
      destruct (IH _ H i e Hi He) as [Hseen | (j & c & Hj & Hc & Hcb)];
        [left; assumption|].
      right. exists (S j), c. repeat split; [lia | assumption | assumption].
    + destruct (IH _ H i e Hi He) as [Hseen | (j & c & Hj & Hc & Hcb)].
      * apply orb_prop in Hseen as [Hseen | Hcb]; [left; assumption|].
        right. exists 0%nat, x. repeat split; [lia | assumption].
      * right. exists (S j), c. repeat split; [lia | assumption | assumption].
Qed.

Lemma callback_first_sound (t : list event) :
  callback_first t = true ->
  forall (i : nat) e, t !! i = Some e -> is_settle e = true ->
  exists (j : nat) c, (j < i)%nat /\ t !! j = Some c /\ is_callback c = true.
Proof.
  intros H i e Hi He.
  destruct (callback_first_from_sound t false H i e Hi He) as [Hf | Hex];
    [discriminate | exact Hex].
Qed.

Ltac split_cases :=
  repeat
    (match goal with
     | |- context [truthy ?x] => destruct (truthy x) eqn:?
     | |- context [_response ?d] => destruct (_response d) eqn:?
     | |- context [andb ?a ?b] => destruct (andb a b) eqn:?
     | |- context [Z.eqb ?a ?b] => destruct (Z.eqb a b) eqn:?
     | |- context [JSON_parse ?t] => destruct (JSON_parse t) eqn:?
     | |- context [mapObject_result ?v ?t] => destruct (mapObject_result v t) eqn:?
     | |- context [pick_callback ?f ?x ?y ?z] =>
         destruct (pick_callback f x y z) eqn:?
     end; cbv beta iota).

Ltac shape_done :=
  eexists _, _, _; split;
  [rewrite <- ?app_assoc; simpl; reflexivity | split; reflexivity].

(** Whatever is delivered, a run of [createConfirmRepliesAsReceived] has
    stripped the caller's object, left the configuration alone, sent one
    request, and called no resolving function before the callback. *)
Lemma confirm_run_shape body callback w :
  exists c evs p,
    createConfirmRepliesAsReceived body callback w =
    (c, {| heap := alter cleanValue body (heap w);
           configuration := configuration w;
           trace := trace w ++ confirm_prelude w body ++ evs;
           promise := p |}) /\
    requests evs = [] /\ callback_first_from false evs = true.
Proof.
  rewrite confirm_split. handler_unfold. split_cases; shape_done.
Qed.

Lemma check_run_shape callback w :
  exists c evs p,
    getCheckReplies callback w =
    (c, {| heap := heap w;
           configuration := configuration w;
           trace := trace w ++ check_prelude w ++ evs;
           promise := p |}) /\
    requests evs = [] /\ callback_first_from false evs = true.
Proof.
  rewrite check_split. handler_unfold. split_cases; shape_done.
Qed.

Lemma observe_elim (m : M unit) (w : World) c evs p :
  observe m w = (c, evs, p) ->
  result m w = c /\ events m w = evs /\ promise (final m w) = p.
Proof. unfold observe. intros [= -> -> ->]. repeat split. Qed.

Lemma confirm_shape_events body callback w :
  exists evs,
    events (createConfirmRepliesAsReceived body callback) w =
    confirm_prelude w body ++ evs /\
    requests evs = [] /\ callback_first_from false evs = true.
Proof.
  destruct (confirm_run_shape body callback w) as (c & evs & p & E & Hr & Hc).
  exists evs. split; [|split; assumption].
  apply events_intro. rewrite E. reflexivity.
Qed.

Lemma check_shape_events callback w :
  exists evs,
    events (getCheckReplies callback) w = check_prelude w ++ evs /\
    requests evs = [] /\ callback_first_from false evs = true.
Proof.
  destruct (check_run_shape callback w) as (c & evs & p & E & Hr & Hc).
  exists evs. split; [|split; assumption].
  apply events_intro. rewrite E. reflexivity.
Qed.

Lemma success_status_iff (r : Response.t) :
  success_status r = true <-> 200 <= Response.statusCode r <= 206.
Proof. unfold success_status. rewrite andb_true_iff, !Z.leb_le. tauto. Qed.

Lemma status_400_not_success (r : Response.t) :
  Response.statusCode r = 400 -> success_status r = false.
Proof. unfold success_status. intros ->. reflexivity. Qed.

Lemma classify_cases (d : Delivery) (b : branch) :
  classify d = Some b ->
  match b with
  | TransportFailure => truthy (_error d) = true
  | SuccessStatus =>
      truthy (_error d) = false /\
      exists r, _response d = Some r /\ success_status r = true
  | Status400 =>
      truthy (_error d) = false /\
      exists r, _response d = Some r /\ Response.statusCode r = 400
  | OtherStatus =>
      truthy (_error d) = false /\
      exists r, _response d = Some r /\ success_status r = false /\
                Response.statusCode r <> 400
  end.
Proof.
  unfold classify. destruct (truthy (_error d)) eqn:Ht.
  - intros [= <-]. reflexivity.
  - destruct (_response d) as [r|]; [|discriminate].
    destruct (success_status r) eqn:Hs.
    + intros [= <-]. eauto.
    + destruct (Response.statusCode r =? 400) eqn:H4; intros [= <-].
      * apply Z.eqb_eq in H4. eauto.
      * apply Z.eqb_neq in H4. split; [reflexivity|]. exists r. auto.
Qed.

Ltac from_observe H :=
  apply observe_elim in H; destruct H as (_ & Hev & Hp);
  unfold exactly_once; rewrite Hev, Hp;
  split; [repeat split; [discriminate] | simpl; eauto].

Lemma confirm_exactly_once body callback w b :
  returns_normally callback ->
  classify (confirm_delivery w body) = Some b ->
  (b = SuccessStatus -> confirm_decodes (confirm_delivery w body)) ->
  exactly_once (createConfirmRepliesAsReceived body callback) w /\
  settled_as b (promise (final (createConfirmRepliesAsReceived body callback) w)).
Proof.
  intros Hcb Hc Hdec. apply classify_cases in Hc. destruct b.
  - pose proof (confirm_failure_run body callback w Hc
                  (returns_normally_pick _ _ _ _ Hcb)) as H.
    from_observe H.
  - destruct Hc as (Ht & r & Hr & Hs).
    destruct (Hdec eq_refl r Hr) as [v Hv].
    pose proof (confirm_success_run body callback w r v Ht Hr Hs Hv
                  (returns_normally_pick _ _ _ _ Hcb)) as H.
    from_observe H.
  - destruct Hc as (Ht & r & Hr & Hs).
    pose proof (confirm_400_run body callback w r Ht Hr Hs
                  (returns_normally_pick _ _ _ _ Hcb)) as H.
    from_observe H.
  - destruct Hc as (Ht & r & Hr & Hs & Hn).
    pose proof (confirm_other_run body callback w r Ht Hr Hs Hn
                  (returns_normally_pick _ _ _ _ Hcb)) as H.
    from_observe H.
Qed.

Lemma check_exactly_once callback w b :
  returns_normally callback ->
  classify (check_delivery w) = Some b ->
  (b = SuccessStatus -> check_decodes (check_delivery w)) ->
  exactly_once (getCheckReplies callback) w /\
  settled_as b (promise (final (getCheckReplies callback) w)).
Proof.
  intros Hcb Hc Hdec. apply classify_cases in Hc. destruct b.
  - pose proof (check_failure_run callback w Hc
                  (returns_normally_pick _ _ _ _ Hcb)) as H.
    from_observe H.
  - destruct Hc as (Ht & r & Hr & Hs).
    destruct (Hdec eq_refl r Hr) as (v & m & Hv & Hm).
    pose proof (check_success_run callback w r v m Ht Hr Hs Hv Hm
                  (returns_normally_pick _ _ _ _ Hcb)) as H.
    from_observe H.
  - destruct Hc as (Ht & r & Hr & Hs).
    pose proof (check_other_run callback w r Ht Hr (status_400_not_success r Hs)
                  (returns_normally_pick _ _ _ _ Hcb)) as H.
    from_observe H.
  - destruct Hc as (Ht & r & Hr & Hs & Hn).
    pose proof (check_other_run callback w r Ht Hr Hs
                  (returns_normally_pick _ _ _ _ Hcb)) as H.
    from_observe H.
Qed.

(** *** The operations' contract *)

(** C1, amended.  In each of the four outcome branches of either operation
    the callback is called exactly once and the returned promise is settled
    exactly once (resolved in the success branch, rejected in the error
    branches), provided that the callback returns normally and, in the
    success branch, that the body decodes (it is JSON and, for
    check-replies, the mapper accepts it).  With no callback the
    placeholder takes its place and the same holds with no condition on
    the callback. *)
Theorem exactly_once_in_decoded_branches body callback w b :
  returns_normally callback ->
  (classify (confirm_delivery w body) = Some b ->
   (b = SuccessStatus -> confirm_decodes (confirm_delivery w body)) ->
   (exactly_once (createConfirmRepliesAsReceived body callback) w /\
    settled_as b
      (promise (final (createConfirmRepliesAsReceived body callback) w))) /\
   (exactly_once (createConfirmRepliesAsReceived body None) w /\
    settled_as b
      (promise (final (createConfirmRepliesAsReceived body None) w)))) /\
  (classify (check_delivery w) = Some b ->
   (b = SuccessStatus -> check_decodes (check_delivery w)) ->
   (exactly_once (getCheckReplies callback) w /\
    settled_as b (promise (final (getCheckReplies callback) w))) /\
   (exactly_once (getCheckReplies None) w /\
    settled_as b (promise (final (getCheckReplies None) w)))).
Proof.
  intros Hcb. split; intros Hc Hdec; split.
  - apply confirm_exactly_once; assumption.
  - apply confirm_exactly_once; [apply returns_normally_None | assumption..].
  - apply check_exactly_once; assumption.
  - apply check_exactly_once; [apply returns_normally_None | assumption..].
Qed.




(** C5.  A response with a status code in [200, 206] whose body is not JSON
    makes the handler of either operation end in an uncaught
    [SyntaxError]; for check-replies a mapper that throws ends it in the
    mapper's exception.  In each case the callback is not called and no
    resolving function is called: the promise stays pending. *)
Theorem undecodable_success_is_uncaught body callback w :
  (forall r,
     truthy (_error (confirm_delivery w body)) = false ->
     _response (confirm_delivery w body) = Some r ->
     200 <= Response.statusCode r <= 206 ->
     JSON_parse (Response.body r) = None ->
     observe (createConfirmRepliesAsReceived body callback) w =
     (Abrupt SyntaxError,
      confirm_prelude w body ++
        [ELog Debug (RawResponse confirm_name r); EJsonParse (Response.body r)],
      Pending) /\
     count is_callback (events (createConfirmRepliesAsReceived body callback) w)
     = 0%nat /\
     count is_settle (events (createConfirmRepliesAsReceived body callback) w)
     = 0%nat) /\
  (forall r,
     truthy (_error (check_delivery w)) = false ->
     _response (check_delivery w) = Some r ->
     200 <= Response.statusCode r <= 206 ->
     JSON_parse (Response.body r) = None ->
     observe (getCheckReplies callback) w =
     (Abrupt SyntaxError,
      check_prelude w ++
        [ELog Debug (RawResponse check_name r); EJsonParse (Response.body r)],
      Pending) /\
     count is_callback (events (getCheckReplies callback) w) = 0%nat /\
     count is_settle (events (getCheckReplies callback) w) = 0%nat) /\
  (forall r v e,
     truthy (_error (check_delivery w)) = false ->
     _response (check_delivery w) = Some r ->
     200 <= Response.statusCode r <= 206 ->
     JSON_parse (Response.body r) = Some v ->
     mapObject_result v "CheckRepliesResponse" = Abrupt e ->
     observe (getCheckReplies callback) w =
     (Abrupt e,
      check_prelude w ++
        [ELog Debug (RawResponse check_name r); EJsonParse (Response.body r);
         ELog Info (Text "Deserializing response for getCheckReplies");
         EMapObject v "CheckRepliesResponse"],
      Pending) /\
     count is_callback (events (getCheckReplies callback) w) = 0%nat /\
     count is_settle (events (getCheckReplies callback) w) = 0%nat).
Proof.
  split; [|split].
  - intros r Ht Hr Hs Hp.
    pose proof (confirm_parse_failure_run body callback w r Ht Hr
                  (proj2 (success_status_iff r) Hs) Hp) as E.
    split; [exact E|].
    apply observe_elim in E as (_ & -> & _). split; reflexivity.
  - intros r Ht Hr Hs Hp.
    pose proof (check_parse_failure_run callback w r Ht Hr
                  (proj2 (success_status_iff r) Hs) Hp) as E.
    split; [exact E|].
    apply observe_elim in E as (_ & -> & _). split; reflexivity.
  - intros r v e Ht Hr Hs Hp Hm.
    pose proof (check_map_failure_run callback w r v e Ht Hr
                  (proj2 (success_status_iff r) Hs) Hp Hm) as E.
    split; [exact E|].
    apply observe_elim in E as (_ & -> & _). split; reflexivity.
Qed.

(** C6.  Whatever the request object holds, [createConfirmRepliesAsReceived]
    hands the transport exactly one request: a [POST] to the cleaned
    concatenation of the configured base URI and [/v1/replies/confirmed],
    with the three headers, the configured user name and password, and as
    body the serialisation of the object after the strip-null-fields
    pass.  Nothing in the object stops or changes the request otherwise:
    no cap on the number of identifiers and no format is checked. *)
Theorem confirm_sends_post_request body callback w :
  requests (events (createConfirmRepliesAsReceived body callback) w) =
  [ {| Options.queryUrl :=
         Url.cleanUrl (BASEURI (configuration w) +:+ "/v1/replies/confirmed");
       Options.method := "POST";
       Options.headers :=
         [("accept", "application/json");
          ("content-type", "application/json; charset=utf-8");
          ("user-agent", "messagemedia-messages-nodejs-sdk-1.0.0")];
       Options.body :=
         Some (jsonSerialize (cleanValue (default VUndefined (heap w !! body))));
       Options.username := basicAuthUserName (configuration w);
       Options.password := basicAuthPassword (configuration w) |} ].
Proof.
  destruct (confirm_shape_events body callback w) as (evs & -> & Hr & _).
  rewrite requests_app, Hr. reflexivity.
Qed.

(** C7.  [getCheckReplies] hands the transport exactly one request: a [GET]
    to the cleaned concatenation of the configured base URI and
    [/v1/replies], with the two headers, no body, and the configured user
    name and password. *)
Theorem check_sends_get_request callback w :
  requests (events (getCheckReplies callback) w) =
  [ {| Options.queryUrl :=
         Url.cleanUrl (BASEURI (configuration w) +:+ "/v1/replies");
       Options.method := "GET";
       Options.headers :=
         [("accept", "application/json");
          ("user-agent", "messagemedia-messages-nodejs-sdk-1.0.0")];
       Options.body := None;
       Options.username := basicAuthUserName (configuration w);
       Options.password := basicAuthPassword (configuration w) |} ].
Proof.
  destruct (check_shape_events callback w) as (evs & -> & Hr & _).
  rewrite requests_app, Hr. reflexivity.
Qed.

(** C9, amended.  [createConfirmRepliesAsReceived] leaves the process-wide
    configuration and every object other than the caller's request object
    as they were; the request object itself is stripped of its null
    fields in place, so after the call it holds what the strip-null pass
    makes of it. *)
Theorem confirm_strips_request_object_only body callback w :
  heap (final (createConfirmRepliesAsReceived body callback) w) =
  alter cleanValue body (heap w) /\
  configuration (final (createConfirmRepliesAsReceived body callback) w) =
  configuration w.
Proof.
  destruct (confirm_run_shape body callback w) as (c & evs & p & E & _).
  unfold final. rewrite E. split; reflexivity.
Qed.

(** C10.  In every run of either operation, a call of a resolving function
    ([_fulfill] or [_reject]) comes after a call of the callback. *)
Theorem callback_precedes_settlement body callback w (i : nat) (e : event) :
  is_settle e = true ->
  (events (createConfirmRepliesAsReceived body callback) w !! i = Some e ->
   exists (j : nat) c,
     (j < i)%nat /\ is_callback c = true /\
     events (createConfirmRepliesAsReceived body callback) w !! j = Some c) /\
  (events (getCheckReplies callback) w !! i = Some e ->
   exists (j : nat) c,
     (j < i)%nat /\ is_callback c = true /\
     events (getCheckReplies callback) w !! j = Some c).
Proof.
  intros He. split; intros Hi.
  - destruct (confirm_shape_events body callback w) as (evs & E & _ & Hc).
    rewrite E in Hi |- *.
    destruct (callback_first_sound (confirm_prelude w body ++ evs) Hc i e Hi He)
      as (j & c & Hj & Hjc & Hcb).
    exists j, c. auto.
  - destruct (check_shape_events callback w) as (evs & E & _ & Hc).
    rewrite E in Hi |- *.
    destruct (callback_first_sound (check_prelude w ++ evs) Hc i e Hi He)
      as (j & c & Hj & Hjc & Hcb).
    exists j, c. auto.
Qed.

(** *** Further properties of the two operations *)

Ltac run_cases :=
  unfold observe, result, final, events;
  rewrite ?confirm_split, ?check_split;
  unfold confirm_delivery, check_delivery, classify, success_status,
    confirm_decodes, check_decodes;
  handler_unfold; split_cases;
  cbn [fst snd]; rewrite <- ?app_assoc, ?drop_app_length.

Ltac count_events := unfold count, confirm_prelude, check_prelude; simpl.

Lemma not_success_status (r : Response.t) :
  Response.statusCode r < 200 \/ 206 < Response.statusCode r ->
  success_status r = false.
Proof.
  intros H. unfold success_status. apply andb_false_iff.
  rewrite !Z.leb_gt. lia.
Qed.

(** X1.  When the transport delivers neither an error nor a response, the
    handler of either operation ends in an uncaught [TypeError] on reading
    the status code: the callback is not called and the promise is left
    pending. *)
Theorem missing_response_is_uncaught_type_error body callback w :
  (truthy (_error (confirm_delivery w body)) = false ->
   _response (confirm_delivery w body) = None ->
   observe (createConfirmRepliesAsReceived body callback) w =
   (Abrupt TypeError, confirm_prelude w body, Pending)) /\
  (truthy (_error (check_delivery w)) = false ->
   _response (check_delivery w) = None ->
   observe (getCheckReplies callback) w =
   (Abrupt TypeError, check_prelude w, Pending)).
Proof.
  split; run_cases; intros; simplify_eq; rewrite ?app_nil_r; reflexivity.
Qed.

(** X2.  A response whose status code lies outside [200, 206] (and, for the
    confirm operation, is not 400) goes through the validate-response
    fallback: the callback gets the fallback's error, response and context,
    the promise is rejected with the fallback's error, and the body is not
    parsed.  (The callback is one that returns.) *)
Theorem other_status_rejects_through_fallback body callback w :
  returns_normally callback ->
  (forall r,
     truthy (_error (confirm_delivery w body)) = false ->
     _response (confirm_delivery w body) = Some r ->
     Response.statusCode r < 200 \/ 206 < Response.statusCode r ->
     Response.statusCode r <> 400 ->
     let d := confirm_delivery w body in
     let er := validateResponse_result (_context d) confirm_name in
     observe (createConfirmRepliesAsReceived body callback) w =
     (Normal tt,
      confirm_prelude w body ++
        [ELog Info (Text "Validating response for createConfirmRepliesAsReceived ");
         EValidateResponse (_context d) confirm_name;
         ECallback (ErrorResponse.error er) (ErrorResponse.response er)
           (ErrorResponse.context er);
         EReject (ErrorResponse.error er)],
      Rejected (ErrorResponse.error er)) /\
     count is_parse (events (createConfirmRepliesAsReceived body callback) w)
     = 0%nat) /\
  (forall r,
     truthy (_error (check_delivery w)) = false ->
     _response (check_delivery w) = Some r ->
     Response.statusCode r < 200 \/ 206 < Response.statusCode r ->
     let d := check_delivery w in
     let er := validateResponse_result (_context d) check_name in
     observe (getCheckReplies callback) w =
     (Normal tt,
      check_prelude w ++
        [ELog Info (Text "Validating response for getCheckReplies ");
         EValidateResponse (_context d) check_name;
         ECallback (ErrorResponse.error er) (ErrorResponse.response er)
           (ErrorResponse.context er);
         EReject (ErrorResponse.error er)],
      Rejected (ErrorResponse.error er)) /\
     count is_parse (events (getCheckReplies callback) w) = 0%nat).
Proof.
  intros Hcb. split.
  - intros r Ht Hr Hs Hn. cbv zeta.
    pose proof (confirm_other_run body callback w r Ht Hr (not_success_status r Hs)
                  Hn (returns_normally_pick _ _ _ _ Hcb)) as H.
    split; [exact H|]. apply observe_elim in H as (_ & -> & _). reflexivity.
  - intros r Ht Hr Hs. cbv zeta.
    pose proof (check_other_run callback w r Ht Hr (not_success_status r Hs)
                  (returns_normally_pick _ _ _ _ Hcb)) as H.
    split; [exact H|]. apply observe_elim in H as (_ & -> & _). reflexivity.
Qed.

(** X3.  In no run of either operation is the callback called twice or a
    resolving function called twice; in particular [_fulfill] and [_reject]
    are never both called. *)
Theorem at_most_one_callback_and_settlement body callback w :
  ((count is_callback (events (createConfirmRepliesAsReceived body callback) w) <= 1)%nat /\
   (count is_settle (events (createConfirmRepliesAsReceived body callback) w) <= 1)%nat) /\
  ((count is_callback (events (getCheckReplies callback) w) <= 1)%nat /\
   (count is_settle (events (getCheckReplies callback) w) <= 1)%nat).
Proof.
  split; run_cases; count_events; lia.
Qed.

(** X4.  The promise of a call is settled exactly when the handler runs to
    its end: a run that ends in an uncaught exception leaves the promise
    pending, and no other run does. *)
Theorem promise_settled_iff_handler_completes body callback w :
  (result (createConfirmRepliesAsReceived body callback) w = Normal tt <->
   promise (final (createConfirmRepliesAsReceived body callback) w) <> Pending) /\
  (result (getCheckReplies callback) w = Normal tt <->
   promise (final (getCheckReplies callback) w) <> Pending).
Proof.
  split; run_cases; cbn [promise];
    (split; intros H; first [discriminate | reflexivity | congruence]).
Qed.

(** X5.  Whatever the promise is settled with is what the callback was
    called with: a fulfilment value was the callback's second argument with
    a null error, a rejection value was the callback's error argument. *)
Theorem promise_settles_with_what_callback_got body callback w :
  (forall v,
     promise (final (createConfirmRepliesAsReceived body callback) w) = Fulfilled v ->
     In (ECallback VNull v (_context (confirm_delivery w body)))
        (events (createConfirmRepliesAsReceived body callback) w)) /\
  (forall e,
     promise (final (createConfirmRepliesAsReceived body callback) w) = Rejected e ->
     exists r c,
       In (ECallback e r c)
          (events (createConfirmRepliesAsReceived body callback) w)) /\
  (forall v,
     promise (final (getCheckReplies callback) w) = Fulfilled v ->
     In (ECallback VNull v (_context (check_delivery w)))
        (events (getCheckReplies callback) w)) /\
  (forall e,
     promise (final (getCheckReplies callback) w) = Rejected e ->
     exists r c, In (ECallback e r c) (events (getCheckReplies callback) w)).
Proof.
  repeat split; run_cases; cbn [promise]; intros x Hx; simplify_eq;
    unfold confirm_prelude, check_prelude; simpl; eauto 20.
Qed.

(** X6.  A promise is fulfilled only on a decoded success: if the promise of
    a call ends fulfilled with [v], the transport reported no error, the
    status code was in [200, 206], and [v] is the body parsed as JSON (for
    check-replies, that value mapped as [CheckRepliesResponse]). *)
Theorem fulfilment_only_on_decoded_success body callback w v :
  (promise (final (createConfirmRepliesAsReceived body callback) w) = Fulfilled v ->
   truthy (_error (confirm_delivery w body)) = false /\
   exists r,
     _response (confirm_delivery w body) = Some r /\
     200 <= Response.statusCode r <= 206 /\
     JSON_parse (Response.body r) = Some v) /\
  (promise (final (getCheckReplies callback) w) = Fulfilled v ->
   truthy (_error (check_delivery w)) = false /\
   exists r parsed,
     _response (check_delivery w) = Some r /\
     200 <= Response.statusCode r <= 206 /\
     JSON_parse (Response.body r) = Some parsed /\
     mapObject_result parsed "CheckRepliesResponse" = Normal v).
Proof.
  split; run_cases; cbn [promise]; intros Hv; simplify_eq;
    (split; [reflexivity|]); repeat eexists; eauto;
    apply success_status_iff; assumption.
Qed.

(** X7.  A promise is rejected with one of two values only: the error of the
    validate-response fallback, or, for the confirm operation on status 400,
    the client error carrying the raw body. *)
Theorem rejection_values body callback w e :
  (promise (final (createConfirmRepliesAsReceived body callback) w) = Rejected e ->
   e = ErrorResponse.error
         (validateResponse_result (_context (confirm_delivery w body)) confirm_name) \/
   exists r,
     truthy (_error (confirm_delivery w body)) = false /\
     _response (confirm_delivery w body) = Some r /\
     Response.statusCode r = 400 /\
     e = VObj [("errorMessage", VStr EmptyString);
               ("errorCode", VInt 400);
               ("errorResponse", VStr (Response.body r))]) /\
  (promise (final (getCheckReplies callback) w) = Rejected e ->
   e = ErrorResponse.error
         (validateResponse_result (_context (check_delivery w)) check_name)).
Proof.
  split; run_cases; cbn [promise]; intros He; simplify_eq;
    try (left; reflexivity); try reflexivity.
  right. eexists. repeat split. apply Z.eqb_eq. assumption.
Qed.

(** X8.  The response body is parsed exactly in the runs that reach the
    success branch (no transport error, status code in [200, 206]), once,
    and in no other run. *)
Theorem body_parsed_exactly_on_success_status body callback w :
  count is_parse (events (createConfirmRepliesAsReceived body callback) w) =
  match classify (confirm_delivery w body) with
  | Some SuccessStatus => 1%nat
  | _ => 0%nat
  end /\
  count is_parse (events (getCheckReplies callback) w) =
  match classify (check_delivery w) with
  | Some SuccessStatus => 1%nat
  | _ => 0%nat
  end.
Proof.
  split; run_cases; count_events; reflexivity.
Qed.

(** X9.  Every call writes the request description, with the configured
    user name and password in it, to the debug log, and does so before it
    hands the request to the transport. *)
Theorem credentials_reach_the_debug_log body callback w :
  (exists o,
     events (createConfirmRepliesAsReceived body callback) w !! 3%nat =
     Some (ELog Debug (RawRequest "createConfirmRepliesAsReceived" o)) /\
     events (createConfirmRepliesAsReceived body callback) w !! 5%nat =
     Some (ERequest o) /\
     Options.username o = basicAuthUserName (configuration w) /\
     Options.password o = basicAuthPassword (configuration w)) /\
  (exists o,
     events (getCheckReplies callback) w !! 3%nat =
     Some (ELog Debug (RawRequest "getCheckReplies" o)) /\
     events (getCheckReplies callback) w !! 5%nat = Some (ERequest o) /\
     Options.username o = basicAuthUserName (configuration w) /\
     Options.password o = basicAuthPassword (configuration w)).
Proof.
  split.
  - destruct (confirm_shape_events body callback w) as (evs & -> & _).
    exists (confirm_request w body). repeat split.
  - destruct (check_shape_events callback w) as (evs & -> & _).
    exists (check_request w). repeat split.
Qed.

(** X10.  [getCheckReplies] changes no object and leaves the configuration
    as it was, whatever is delivered and whatever the callback does. *)
Theorem check_replies_changes_no_state callback w :
  heap (final (getCheckReplies callback) w) = heap w /\
  configuration (final (getCheckReplies callback) w) = configuration w.
Proof.
  destruct (check_run_shape callback w) as (c & evs & p & E & _).
  unfold final. rewrite E. split; reflexivity.
Qed.

(** X11.  A callback that throws is called once, its exception is caught by
    nobody, and no resolving function is called after it: the promise of
    that call stays pending, in every branch that reaches the callback. *)
Theorem callback_exception_is_uncaught body (f : cbfun) (x : value) w b :
  (forall e r c, f e r c = Throws x) ->
  (classify (confirm_delivery w body) = Some b ->
   (b = SuccessStatus -> confirm_decodes (confirm_delivery w body)) ->
   result (createConfirmRepliesAsReceived body (Some f)) w = Abrupt (Thrown x) /\
   count is_callback (events (createConfirmRepliesAsReceived body (Some f)) w) = 1%nat /\
   count is_settle (events (createConfirmRepliesAsReceived body (Some f)) w) = 0%nat /\
   promise (final (createConfirmRepliesAsReceived body (Some f)) w) = Pending) /\
  (classify (check_delivery w) = Some b ->
   (b = SuccessStatus -> check_decodes (check_delivery w)) ->
   result (getCheckReplies (Some f)) w = Abrupt (Thrown x) /\
   count is_callback (events (getCheckReplies (Some f)) w) = 1%nat /\
   count is_settle (events (getCheckReplies (Some f)) w) = 0%nat /\
   promise (final (getCheckReplies (Some f)) w) = Pending).
Proof.
  intros Hf. split; run_cases; cbn [promise]; intros Hb Hdec;
    repeat match goal with
      | H : pick_callback (Some f) _ _ _ = _ |- _ =>
          simpl in H; rewrite Hf in H; simplify_eq
      end;
    simplify_eq; count_events; try (repeat split; reflexivity).
  all: exfalso.
  - destruct (Hdec eq_refl _ eq_refl) as [? ?]. congruence.
  - destruct (Hdec eq_refl _ eq_refl) as (? & ? & ? & ?). congruence.
  - destruct (Hdec eq_refl _ eq_refl) as (? & ? & ? & ?). congruence.
Qed.

End RepliesController.

(** ** URL normalisation *)

Section CleanUrl.
Import Url.

Local Arguments String.append : simpl nomatch.

Lemma string_app_assoc (a b c : string) : (a +:+ b) +:+ c = a +:+ (b +:+ c).
Proof. induction a as [|x a IH]; simpl; [reflexivity | rewrite IH; reflexivity]. Qed.

Lemma collapse_cons (c : ascii) (t : string) :
  collapse (String c t) =
  if is_slash c then
    match t with
    | String d _ => if is_slash d then collapse t else String c (collapse t)
    | EmptyString => String c EmptyString
    end
  else String c (collapse t).
Proof. reflexivity. Qed.

Lemma collapse_idempotent (s : string) : collapse (collapse s) = collapse s.
Proof.
  induction s as [|c t IH]; [reflexivity|].
  rewrite collapse_cons. destruct (is_slash c) eqn:Hc.
  - destruct t as [|d t'].
    + rewrite collapse_cons, Hc. reflexivity.
    + destruct (is_slash d) eqn:Hd; [exact IH|].
      rewrite (collapse_cons d t'), Hd in IH |- *.
      rewrite (collapse_cons c), Hc, Hd. f_equal. exact IH.
  - rewrite collapse_cons, Hc, IH. reflexivity.
Qed.

Lemma collapse_starts_path (s : string) :
  starts_path s = true -> starts_path (collapse s) = true.
Proof.
  induction s as [|c t IH]; [reflexivity|].
  simpl. intros Hc. rewrite Hc.
  destruct t as [|d t']; [simpl; assumption|].
  destruct (is_slash d) eqn:Hd; [apply IH; simpl; assumption | simpl; assumption].
Qed.

(** A doubled separator anywhere collapses like a single one. *)
Lemma collapse_doubled (r t : string) :
  collapse (r +:+ String slash (String slash t)) = collapse (r +:+ String slash t).
Proof.
  induction r as [|c r IH]; [reflexivity|].
  cbn [String.append collapse]. destruct (is_slash c) eqn:Hc.
  - destruct r as [|d r'].
    + reflexivity.
    + cbn [String.append] in IH |- *.
      destruct (is_slash d); [exact IH | rewrite IH; reflexivity].
  - rewrite IH. reflexivity.
Qed.

Lemma split_colon_spec (s p r : string) :
  split_colon s = Some (p, r) ->
  s = p +:+ String colon r /\
  forall x, split_colon (p +:+ String colon x) = Some (p, x).
Proof.
  revert p r. induction s as [|c t IH]; intros p r; [discriminate|].
  simpl. destruct (is_slash c) eqn:Hs; [discriminate|].
  destruct (Ascii.eqb c colon) eqn:Hc.
  - intros [= <- <-]. apply Ascii.eqb_eq in Hc. subst c. split; [reflexivity|].
    intros x. reflexivity.
  - destruct (split_colon t) as [[p' r']|] eqn:Ht; [|discriminate].
    intros [= <- <-]. destruct (IH p' r' eq_refl) as [Heq Hx].
    split; [simpl; rewrite <- Heq; reflexivity|].
    intros x. simpl. rewrite Hs, Hc, Hx. reflexivity.
Qed.

Lemma split_scheme_spec (s p r : string) :
  split_scheme s = Some (p, r) ->
  s = p +:+ r /\ forall x, split_scheme (p +:+ x) = Some (p, x).
Proof.
  unfold split_scheme.
  destruct (split_colon s) as [[sch rest]|] eqn:Hs; [|discriminate].
  destruct sch as [|c sch]; [discriminate|].
  destruct rest as [|s1 [|s2 rest]]; try discriminate.
  destruct (is_slash s1) eqn:H1; [|discriminate].
  destruct (is_slash s2) eqn:H2; [|discriminate].
  simpl. intros [= <- <-].
  apply Ascii.eqb_eq in H1, H2. subst s1 s2.
  destruct (split_colon_spec _ _ _ Hs) as [Heq Hx]. split.
  - rewrite Heq. simpl. rewrite string_app_assoc. reflexivity.
  - intros x.
    assert (E : String c (sch +:+ String colon (String slash (String slash EmptyString)))
                +:+ x
                = String c sch +:+ String colon (String slash (String slash x))).
    { simpl. rewrite string_app_assoc. reflexivity. }
    rewrite E, Hx. reflexivity.
Qed.

Lemma split_host_spec (s h r : string) :
  split_host s = (h, r) ->
  s = h +:+ r /\ starts_path r = true /\
  forall x, starts_path x = true -> split_host (h +:+ x) = (h, x).
Proof.
  revert h r. induction s as [|c t IH]; intros h r.
  - intros [= <- <-]. repeat split. intros [|d x]; [reflexivity|].
    simpl. intros ->. reflexivity.
  - simpl. destruct (is_slash c) eqn:Hc.
    + intros [= <- <-]. repeat split; [simpl; assumption|].
      intros [|d x]; [reflexivity|]. simpl. intros ->. reflexivity.
    + destruct (split_host t) as [h' r'] eqn:Ht. intros [= <- <-].
      destruct (IH h' r' eq_refl) as (Heq & Hr & Hx).
      repeat split; [simpl; rewrite <- Heq; reflexivity | assumption |].
      intros x Hsx. simpl. rewrite Hc, (Hx x Hsx). reflexivity.
Qed.

Lemma split_absolute_spec (url o r : string) :
  split_absolute url = Some (o, r) ->
  url = o +:+ r /\ starts_path r = true /\
  forall x, starts_path x = true -> split_absolute (o +:+ x) = Some (o, x).
Proof.
  unfold split_absolute.
  destruct (split_scheme url) as [[p rest]|] eqn:Hs; [|discriminate].
  destruct (split_host rest) as [h rest'] eqn:Hh.
  destruct h as [|c h]; [discriminate|]. intros [= <- <-].
  destruct (split_scheme_spec _ _ _ Hs) as [Heq Hp].
  destruct (split_host_spec _ _ _ Hh) as (Heq' & Hr & Hx).
  repeat split.
  - rewrite Heq, Heq', string_app_assoc. reflexivity.
  - assumption.
  - intros x Hsx. rewrite string_app_assoc, Hp, (Hx x Hsx). reflexivity.
Qed.

Lemma cleanUrl_fixed (u v : string) : cleanUrl u = Some v -> cleanUrl v = Some v.
Proof.
  unfold cleanUrl.
  destruct (split_absolute u) as [[o r]|] eqn:Hu; [|discriminate].
  intros [= <-]. destruct (split_absolute_spec _ _ _ Hu) as (_ & Hr & Hx).
  rewrite (Hx (collapse r) (collapse_starts_path r Hr)), collapse_idempotent.
  reflexivity.
Qed.

Lemma cleanUrl_trailing_slash (base path : string) :
  is_absolute base = true ->
  cleanUrl ((base +:+ "/") +:+ String slash path) =
  cleanUrl (base +:+ String slash path).
Proof.
  unfold is_absolute, cleanUrl.
  destruct (split_absolute base) as [[o r]|] eqn:Hb; [intros _ | discriminate].
  destruct (split_absolute_spec _ _ _ Hb) as (-> & Hr & Hx).
  rewrite !string_app_assoc.
  assert (Hs : forall t, starts_path (r +:+ String slash t) = true).
  { intros t. destruct r; [reflexivity | exact Hr]. }
  change ("/" +:+ String slash path) with (String slash (String slash path)).
  rewrite (Hx _ (Hs (String slash path))), (Hx _ (Hs path)).
  rewrite collapse_doubled. reflexivity.
Qed.

(** C8.  [cleanUrl] is idempotent: what it yields it yields again when
    applied to its own result.  And for every absolute base URI the URL
    made for the path [/v1/replies] is the same whether or not the base
    ends with a separator; so is the URL of the request [getCheckReplies]
    builds from two configurations that differ in that way only. *)
Theorem cleanUrl_idempotent_and_slash_insensitive (base : string) :
  is_absolute base = true ->
  (forall u v, cleanUrl u = Some v -> cleanUrl v = Some v) /\
  cleanUrl ((base +:+ "/") +:+ "/v1/replies") = cleanUrl (base +:+ "/v1/replies") /\
  is_Some (cleanUrl (base +:+ "/v1/replies")) /\
  (forall w w',
     BASEURI (configuration w) = base ->
     BASEURI (configuration w') = base +:+ "/" ->
     Options.queryUrl (check_request w') = Options.queryUrl (check_request w)).
Proof.
  intros Hb. split; [exact cleanUrl_fixed|]. split; [|split].
  - exact (cleanUrl_trailing_slash base "v1/replies" Hb).
  - unfold is_absolute in Hb. unfold cleanUrl.
    destruct (split_absolute base) as [[o r]|] eqn:Hs; [|discriminate].
    destruct (split_absolute_spec _ _ _ Hs) as (-> & Hr & Hx).
    rewrite string_app_assoc, Hx; [eexists; reflexivity|].
    destruct r; [reflexivity | exact Hr].
  - intros w w' Hw Hw'. unfold check_request. cbn [Options.queryUrl].
    rewrite Hw, Hw'. exact (cleanUrl_trailing_slash base "v1/replies" Hb).
Qed.

End CleanUrl.

(** ** The properties on concrete runs *)

Lemma quiet_returns : returns_normally (Some Stub.quiet).
Proof. intros f [= <-] e r c. reflexivity. Defined.

(** Status 200 with body [{}], a callback that returns: both operations call
    it once and resolve once. *)
Lemma exactly_once_in_decoded_branches_witness :
  exactly_once
    (createConfirmRepliesAsReceived Stub.validateResponse_result Stub.jsonSerialize
       (Stub.answer 200 "{}") 1%positive (Some Stub.quiet)) Stub.world /\
  exactly_once
    (getCheckReplies Stub.validateResponse_result Stub.mapObject_result
       (Stub.answer 200 "{}") (Some Stub.quiet)) Stub.world.
Proof.
  destruct (exactly_once_in_decoded_branches Stub.validateResponse_result
              Stub.mapObject_result Stub.jsonSerialize (Stub.answer 200 "{}")
              1%positive (Some Stub.quiet) Stub.world SuccessStatus quiet_returns)
    as [Hconfirm Hcheck].
  split.
  - apply Hconfirm; [reflexivity|].
    intros _ r [= <-]. exists (VObj []). reflexivity.
  - apply Hcheck; [reflexivity|].
    intros _ r [= <-]. exists (VObj []), (VObj []). split; reflexivity.
Defined.

(** Status 204 with an empty body and no callback: the placeholder is never
    called and the promise stays pending. *)
Lemma exactly_once_fails_on_undecodable_body :
  classify (Stub.answer 204 EmptyString
              (confirm_request Stub.jsonSerialize Stub.world 1%positive))
  = Some SuccessStatus /\
  ~ exactly_once
      (createConfirmRepliesAsReceived Stub.validateResponse_result
         Stub.jsonSerialize (Stub.answer 204 EmptyString) 1%positive None)
      Stub.world /\
  count is_callback
    (events
       (createConfirmRepliesAsReceived Stub.validateResponse_result
          Stub.jsonSerialize (Stub.answer 204 EmptyString) 1%positive None)
       Stub.world) = 0%nat /\
  promise
    (final
       (createConfirmRepliesAsReceived Stub.validateResponse_result
          Stub.jsonSerialize (Stub.answer 204 EmptyString) 1%positive None)
       Stub.world) = Pending.
Proof.
  split; [reflexivity|]. split; [|split; reflexivity].
  intros (Hcalls & _). vm_compute in Hcalls. discriminate.
Qed.





Lemma undecodable_success_is_uncaught_witness :
  result
    (createConfirmRepliesAsReceived Stub.validateResponse_result
       Stub.jsonSerialize (Stub.answer 200 "<html>") 1%positive (Some Stub.quiet))
    Stub.world = Abrupt SyntaxError /\
  result
    (getCheckReplies Stub.validateResponse_result Stub.mapObject_result
       (Stub.answer 200 "<html>") (Some Stub.quiet))
    Stub.world = Abrupt SyntaxError /\
  result
    (getCheckReplies Stub.validateResponse_result Stub.mapObject_result
       (Stub.answer 200 "[]") (Some Stub.quiet))
    Stub.world = Abrupt TypeError.
Proof.
  destruct (undecodable_success_is_uncaught Stub.validateResponse_result
              Stub.mapObject_result Stub.jsonSerialize (Stub.answer 200 "<html>")
              1%positive (Some Stub.quiet) Stub.world) as (Hconfirm & Hcheck & _).
  destruct (undecodable_success_is_uncaught Stub.validateResponse_result
              Stub.mapObject_result Stub.jsonSerialize (Stub.answer 200 "[]")
              1%positive (Some Stub.quiet) Stub.world) as (_ & _ & Hmap).
  split; [|split].
  - destruct (Hconfirm {| Response.statusCode := 200; Response.body := "<html>" |}
                eq_refl eq_refl) as [H _]; [simpl; lia | reflexivity |].
    apply observe_elim in H as (H & _). exact H.
  - destruct (Hcheck {| Response.statusCode := 200; Response.body := "<html>" |}
                eq_refl eq_refl) as [H _]; [simpl; lia | reflexivity |].
    apply observe_elim in H as (H & _). exact H.
  - destruct (Hmap {| Response.statusCode := 200; Response.body := "[]" |}
                (VArr []) TypeError eq_refl eq_refl) as [H _];
      [simpl; lia | reflexivity | reflexivity |].
    apply observe_elim in H as (H & _). exact H.
Defined.

Lemma cleanUrl_idempotent_and_slash_insensitive_witness :
  Url.cleanUrl "https://api.messagemedia.com//v1/replies" =
  Url.cleanUrl "https://api.messagemedia.com/v1/replies".
Proof.
  destruct (cleanUrl_idempotent_and_slash_insensitive
              "https://api.messagemedia.com" eq_refl) as (_ & H & _).
  exact H.
Defined.

(** A callback that throws is called, and that is the end of the handler:
    the promise is left pending.  Hence the callbacks of the properties
    above are the ones that return. *)
Lemma throwing_callback_leaves_promise_pending :
  result
    (createConfirmRepliesAsReceived Stub.validateResponse_result
       Stub.jsonSerialize (Stub.answer 500 "oops") 1%positive (Some Stub.throwing))
    Stub.world = Abrupt (Thrown (VStr "boom")) /\
  count is_callback
    (events
       (createConfirmRepliesAsReceived Stub.validateResponse_result
          Stub.jsonSerialize (Stub.answer 500 "oops") 1%positive
          (Some Stub.throwing))
       Stub.world) = 1%nat /\
  count is_settle
    (events
       (createConfirmRepliesAsReceived Stub.validateResponse_result
          Stub.jsonSerialize (Stub.answer 500 "oops") 1%positive
          (Some Stub.throwing))
       Stub.world) = 0%nat /\
  promise
    (final
       (createConfirmRepliesAsReceived Stub.validateResponse_result
          Stub.jsonSerialize (Stub.answer 500 "oops") 1%positive
          (Some Stub.throwing))
       Stub.world) = Pending.
Proof. repeat split. Qed.

(** The request object of [Stub.world] holds a null field; after the call
    the field is gone from the caller's object. *)
Lemma request_object_is_changed :
  heap Stub.world !! 1%positive =
  Some (VObj [("reply_ids", VArr [VStr "011dcead-6988-4ad6-a1c7-6b6c68ea628d"]);
              ("note", VNull)]) /\
  heap
    (final
       (createConfirmRepliesAsReceived Stub.validateResponse_result
          Stub.jsonSerialize (Stub.answer 200 "{}") 1%positive None)
       Stub.world) !! 1%positive =
  Some (VObj [("reply_ids", VArr [VStr "011dcead-6988-4ad6-a1c7-6b6c68ea628d"])]) /\
  heap
    (final
       (createConfirmRepliesAsReceived Stub.validateResponse_result
          Stub.jsonSerialize (Stub.answer 200 "{}") 1%positive None)
       Stub.world) <> heap Stub.world.
Proof.
  split; [reflexivity|]. split; [reflexivity|].
  intros H. apply (f_equal (fun h : gmap loc value => h !! 1%positive)) in H.
  vm_compute in H. discriminate.
Qed.

Lemma callback_precedes_settlement_witness :
  (exists (j : nat) c,
     (j < 9)%nat /\ is_callback c = true /\
     events
       (createConfirmRepliesAsReceived Stub.validateResponse_result
          Stub.jsonSerialize (Stub.answer 200 "{}") 1%positive (Some Stub.quiet))
       Stub.world !! j = Some c) /\
  (exists (j : nat) c,
     (j < 11)%nat /\ is_callback c = true /\
     events
       (getCheckReplies Stub.validateResponse_result Stub.mapObject_result
          (Stub.answer 200 "{}") (Some Stub.quiet))
       Stub.world !! j = Some c).
Proof.
  split.
  - destruct (callback_precedes_settlement Stub.validateResponse_result
                Stub.mapObject_result Stub.jsonSerialize (Stub.answer 200 "{}")
                1%positive (Some Stub.quiet) Stub.world 9%nat (EFulfill (VObj []))
                eq_refl) as [H _].
    apply H. reflexivity.
  - destruct (callback_precedes_settlement Stub.validateResponse_result
                Stub.mapObject_result Stub.jsonSerialize (Stub.answer 200 "{}")
                1%positive (Some Stub.quiet) Stub.world 11%nat (EFulfill (VObj []))
                eq_refl) as [_ H].
    apply H. reflexivity.
Defined.

(** ** The further properties on concrete runs *)

Lemma missing_response_is_uncaught_type_error_witness :
  result
    (createConfirmRepliesAsReceived Stub.validateResponse_result Stub.jsonSerialize
       (fun _ => {| _error := VNull; _response := None; _context := VNull |})
       1%positive (Some Stub.quiet))
    Stub.world = Abrupt TypeError /\
  result
    (getCheckReplies Stub.validateResponse_result Stub.mapObject_result
       (fun _ => {| _error := VNull; _response := None; _context := VNull |})
       (Some Stub.quiet))
    Stub.world = Abrupt TypeError.
Proof.
  destruct (missing_response_is_uncaught_type_error Stub.validateResponse_result
              Stub.mapObject_result Stub.jsonSerialize
              (fun _ => {| _error := VNull; _response := None; _context := VNull |})
              1%positive (Some Stub.quiet) Stub.world) as [Hconfirm Hcheck].
  split.
  - pose proof (Hconfirm eq_refl eq_refl) as H.
    apply observe_elim in H as (H & _). exact H.
  - pose proof (Hcheck eq_refl eq_refl) as H.
    apply observe_elim in H as (H & _). exact H.
Defined.

Lemma other_status_rejects_through_fallback_witness :
  promise
    (final
       (createConfirmRepliesAsReceived Stub.validateResponse_result
          Stub.jsonSerialize (Stub.answer 207 "{}") 1%positive (Some Stub.quiet))
       Stub.world)
  = Rejected (VObj [("errorMessage", VStr "HTTP Response Not OK")]) /\
  promise
    (final
       (getCheckReplies Stub.validateResponse_result Stub.mapObject_result
          (Stub.answer 199 "{}") (Some Stub.quiet))
       Stub.world)
  = Rejected (VObj [("errorMessage", VStr "HTTP Response Not OK")]).
Proof.
  split.
  - destruct (other_status_rejects_through_fallback Stub.validateResponse_result
                Stub.mapObject_result Stub.jsonSerialize (Stub.answer 207 "{}")
                1%positive (Some Stub.quiet) Stub.world quiet_returns) as [H _].
    destruct (H {| Response.statusCode := 207; Response.body := "{}" |}
                eq_refl eq_refl) as [E _]; [simpl; lia | simpl; lia |].
    apply observe_elim in E as (_ & _ & E). exact E.
  - destruct (other_status_rejects_through_fallback Stub.validateResponse_result
                Stub.mapObject_result Stub.jsonSerialize (Stub.answer 199 "{}")
                1%positive (Some Stub.quiet) Stub.world quiet_returns) as [_ H].
    destruct (H {| Response.statusCode := 199; Response.body := "{}" |}
                eq_refl eq_refl) as [E _]; [simpl; lia |].
    apply observe_elim in E as (_ & _ & E). exact E.
Defined.

Lemma promise_settled_iff_handler_completes_witness :
  promise
    (final
       (createConfirmRepliesAsReceived Stub.validateResponse_result
          Stub.jsonSerialize (Stub.answer 200 "{}") 1%positive (Some Stub.quiet))
       Stub.world) <> Pending /\
  result
    (getCheckReplies Stub.validateResponse_result Stub.mapObject_result
       (Stub.answer 500 "oops") (Some Stub.quiet))
    Stub.world = Normal tt.
Proof.
  split.
  - destruct (promise_settled_iff_handler_completes Stub.validateResponse_result
                Stub.mapObject_result Stub.jsonSerialize (Stub.answer 200 "{}")
                1%positive (Some Stub.quiet) Stub.world) as [[H _] _].
    apply H. reflexivity.
  - destruct (promise_settled_iff_handler_completes Stub.validateResponse_result
                Stub.mapObject_result Stub.jsonSerialize (Stub.answer 500 "oops")
                1%positive (Some Stub.quiet) Stub.world) as [_ [_ H]].
    apply H. discriminate.
Defined.

Lemma promise_settles_with_what_callback_got_witness :
  In (ECallback VNull (VObj []) (VStr "context"))
     (events
        (createConfirmRepliesAsReceived Stub.validateResponse_result
           Stub.jsonSerialize (Stub.answer 200 "{}") 1%positive (Some Stub.quiet))
        Stub.world).
Proof.
  destruct (promise_settles_with_what_callback_got Stub.validateResponse_result
              Stub.mapObject_result Stub.jsonSerialize (Stub.answer 200 "{}")
              1%positive (Some Stub.quiet) Stub.world) as (H & _).
  apply (H (VObj [])). reflexivity.
Defined.

Lemma fulfilment_only_on_decoded_success_witness :
  exists r,
    200 <= Response.statusCode r <= 206 /\
    JSON_parse (Response.body r) = Some (VArr [VNum 1 0]).
Proof.
  destruct (fulfilment_only_on_decoded_success Stub.validateResponse_result
              Stub.mapObject_result Stub.jsonSerialize (Stub.answer 200 "[1]")
              1%positive (Some Stub.quiet) Stub.world (VArr [VNum 1 0])) as [H _].
  destruct (H eq_refl) as (_ & r & Hr & Hs & Hp).
  exists r. split; [exact Hs | exact Hp].
Defined.

Lemma rejection_values_witness :
  VObj [("errorMessage", VStr "HTTP Response Not OK")] =
  ErrorResponse.error (Stub.validateResponse_result (VStr "context") check_name).
Proof.
  destruct (rejection_values Stub.validateResponse_result Stub.mapObject_result
              Stub.jsonSerialize (Stub.answer 500 "oops") 1%positive
              (Some Stub.quiet) Stub.world
              (VObj [("errorMessage", VStr "HTTP Response Not OK")])) as [_ H].
  exact (H eq_refl).
Defined.

Lemma callback_exception_is_uncaught_witness :
  result
    (createConfirmRepliesAsReceived Stub.validateResponse_result Stub.jsonSerialize
       (Stub.answer 200 "{}") 1%positive (Some Stub.throwing))
    Stub.world = Abrupt (Thrown (VStr "boom")) /\
  promise
    (final
       (getCheckReplies Stub.validateResponse_result Stub.mapObject_result
          (Stub.answer 200 "{}") (Some Stub.throwing))
       Stub.world) = Pending.
Proof.
  destruct (callback_exception_is_uncaught Stub.validateResponse_result
              Stub.mapObject_result Stub.jsonSerialize (Stub.answer 200 "{}")
              1%positive Stub.throwing (VStr "boom") Stub.world SuccessStatus
              (fun _ _ _ => eq_refl)) as [Hconfirm Hcheck].
  split.
  - destruct Hconfirm as (H & _); [reflexivity | | exact H].
    intros _ r [= <-]. exists (VObj []). reflexivity.
  - destruct Hcheck as (_ & _ & _ & H); [reflexivity | | exact H].
    intros _ r [= <-]. exists (VObj []), (VObj []). split; reflexivity.
Defined.
